(** * pkg/workloads/deploymentConfig.go

    A shallow embedding of the DeploymentConfig helpers of the workloads
    package: the request builder [RequestDeploymentConfig] with its mutation
    callbacks, and the accessors [GetDeploymentConfig],
    [ListDeploymentConfigs], [CreateDeploymentConfig],
    [UpdateDeploymentConfig] and [DeleteDeploymentConfig] over an injected
    controller-runtime client.

    Go pointers that the code may return as nil are [option]s ([None] is nil),
    a Go [error] value is an [option error], and everything the client and the
    callbacks can reach besides their arguments is threaded explicitly as a
    [World]. *)

From stdpp Require Import base option strings list gmap.

Local Open Scope string_scope.

(** ** k8s.io/apimachinery/pkg/api/errors and Go's [error] *)
Module errors.

(** [metav1.StatusReason] is a string type; these are the reasons the library
    defines. *)
Definition StatusReason : Type := string.

Definition StatusReasonUnknown : StatusReason := "".
Definition StatusReasonUnauthorized : StatusReason := "Unauthorized".
Definition StatusReasonForbidden : StatusReason := "Forbidden".
Definition StatusReasonNotFound : StatusReason := "NotFound".
Definition StatusReasonAlreadyExists : StatusReason := "AlreadyExists".
Definition StatusReasonConflict : StatusReason := "Conflict".
Definition StatusReasonGone : StatusReason := "Gone".
Definition StatusReasonInvalid : StatusReason := "Invalid".
Definition StatusReasonServerTimeout : StatusReason := "ServerTimeout".
Definition StatusReasonTimeout : StatusReason := "Timeout".
Definition StatusReasonTooManyRequests : StatusReason := "TooManyRequests".
Definition StatusReasonBadRequest : StatusReason := "BadRequest".
Definition StatusReasonMethodNotAllowed : StatusReason := "MethodNotAllowed".
Definition StatusReasonNotAcceptable : StatusReason := "NotAcceptable".
Definition StatusReasonRequestEntityTooLarge : StatusReason :=
  "RequestEntityTooLarge".
Definition StatusReasonUnsupportedMediaType : StatusReason :=
  "UnsupportedMediaType".
Definition StatusReasonInternalError : StatusReason := "InternalError".
Definition StatusReasonExpired : StatusReason := "Expired".
Definition StatusReasonServiceUnavailable : StatusReason :=
  "ServiceUnavailable".

(** [http.StatusNotFound], [http.StatusConflict]. *)
Definition StatusNotFound : Z := 404.
Definition StatusConflict : Z := 409.

#[local] Set Warnings "-register-all".

(** Go's [error] values, by what the library can see of them:
    - a [*StatusError], the one [APIStatus] there is, with the reason, the
      HTTP code and the message of its status;
    - a plain message error, as [errors.New] and [fmt.Errorf] without a
      wrapping verb build;
    - an error with a message of its own that wraps others: one for
      [fmt.Errorf] with a [%w], several for more than one [%w] or
      [errors.Join]. *)
Inductive error : Type :=
| StatusError (reason : StatusReason) (code : Z) (message : string)
| errorString (s : string)
| wrapError (msg : string) (errs : list error).

(** The [Error()] method. *)
Definition Error (err : error) : string :=
  match err with
  | StatusError _ _ message => message
  | errorString s => s
  | wrapError msg _ => msg
  end.

(** [err.(APIStatus)], and failing that [errors.As(err, &status)]: the reason
    and code of the first status error met, the error itself first, then
    what it wraps, depth first and in order. *)
Fixpoint statusOf (err : error) : option (StatusReason * Z) :=
  match err with
  | StatusError reason code _ => Some (reason, code)
  | errorString _ => None
  | wrapError _ errs =>
      (fix first (errs : list error) : option (StatusReason * Z) :=
         match errs with
         | [] => None
         | err :: errs =>
             match statusOf err with
             | Some status => Some status
             | None => first errs
             end
         end) errs
  end.

(** The reasons with a predicate of their own; [StatusReasonUnknown] is not
    among them. *)
Definition knownReasons : gset StatusReason :=
  list_to_set
    [StatusReasonUnauthorized; StatusReasonForbidden; StatusReasonNotFound;
     StatusReasonAlreadyExists; StatusReasonConflict; StatusReasonGone;
     StatusReasonInvalid; StatusReasonServerTimeout; StatusReasonTimeout;
     StatusReasonTooManyRequests; StatusReasonBadRequest;
     StatusReasonMethodNotAllowed; StatusReasonNotAcceptable;
     StatusReasonRequestEntityTooLarge; StatusReasonUnsupportedMediaType;
     StatusReasonInternalError; StatusReasonExpired;
     StatusReasonServiceUnavailable].

Definition ReasonForError (err : error) : StatusReason :=
  match statusOf err with
  | Some (reason, _) => reason
  | None => StatusReasonUnknown
  end.

Definition reasonAndCodeForError (err : error) : StatusReason * Z :=
  match statusOf err with
  | Some (reason, code) => (reason, code)
  | None => (StatusReasonUnknown, 0%Z)
  end.

(** True for the reason NotFound, and for a reason the library does not know
    when the code is 404. *)
Definition IsNotFound (err : error) : bool :=
  let '(reason, code) := reasonAndCodeForError err in
  if String.eqb reason StatusReasonNotFound then true
  else if negb (bool_decide (reason ∈ knownReasons))
          && (code =? StatusNotFound)%Z then true
  else false.

Definition IsAlreadyExists (err : error) : bool :=
  String.eqb (ReasonForError err) StatusReasonAlreadyExists.

(** The quote character of the [%q] verb. *)
Definition quote : string := String (Ascii.ascii_of_nat 34) EmptyString.

(** [NewNotFound] and [NewAlreadyExists] for the resource of the package. *)
Definition NewNotFound (name : string) : error :=
  StatusError StatusReasonNotFound StatusNotFound
    ("deploymentconfigs.apps.openshift.io " +:+ quote +:+ name +:+ quote
     +:+ " not found").

Definition NewAlreadyExists (name : string) : error :=
  StatusError StatusReasonAlreadyExists StatusConflict
    ("deploymentconfigs.apps.openshift.io " +:+ quote +:+ name +:+ quote
     +:+ " already exists").

End errors.

(** ** fmt *)
Module fmt.

(** [fmt.Errorf(prefix + "%s", err)]: the verb is [%s], so the new error
    carries the message of [err] and nothing else of it. *)
Definition Errorf_s (prefix : string) (err : errors.error) : errors.error :=
  errors.errorString (prefix +:+ errors.Error err).

End fmt.

(** ** k8s.io/apimachinery/pkg/apis/meta/v1 and pkg/types *)
Module metav1.

Record ObjectMeta : Type := {
  Name : string;
  Namespace : string;
  Labels : gmap string string;
  Annotations : gmap string string
}.

Definition zero : ObjectMeta :=
  {| Name := ""; Namespace := ""; Labels := ∅; Annotations := ∅ |}.

Record ListMeta : Type := {
  ResourceVersion : string;
  Continue : string
}.

Definition zeroList : ListMeta := {| ResourceVersion := ""; Continue := "" |}.

End metav1.

Module types.

Record NamespacedName : Type := {
  Namespace : string;
  Name : string
}.

End types.

(** ** github.com/argoproj-labs/argocd-operator/pkg/argoutil *)
Module argoutil.

(** Modelled from the spec: [argoutil.MergeMaps] is not among the sources.
    The spec has labels and annotations "merged with a fixed default set,
    caller-supplied values taking precedence on key collision": the second
    map is laid over the first. *)
Definition MergeMaps (a b : gmap string string) : gmap string string :=
  b ∪ a.

End argoutil.

(** ** What the package takes from elsewhere *)

(** The types of other libraries that the package only passes around: what a
    non-nil [interface{}] can hold (a nil one is [None]), the rest of
    [oappsv1.DeploymentConfig] (its spec and status) with its zero value, and
    [ctrlClient.ListOption]. *)
Class Extern : Type := {
  Any : Type;
  Body : Type;
  zeroBody : Body;
  ListOption : Type
}.

(** Modelled from the spec: [argoutil.GenerateResourceName],
    [common.DefaultLabels] and [common.DefaultAnnotations] are not among the
    sources. The spec only says that the default name is "a deterministic
    function of (instance name, component)" and that the defaults are "a fixed
    default set": each is any function of the strings it is given. *)
Class Helpers : Type := {
  GenerateResourceName : string → string → string;
  DefaultLabels : string → string → string → gmap string string;
  DefaultAnnotations : string → string → gmap string string
}.

(** ** github.com/openshift/api/apps/v1 *)
Module oappsv1.
Section apps_types.

Context `{Extern}.

Record DeploymentConfig : Type := {
  ObjectMeta : metav1.ObjectMeta;
  Rest : Body
}.

(** [&oappsv1.DeploymentConfig{}] *)
Definition zeroDeploymentConfig : DeploymentConfig :=
  {| ObjectMeta := metav1.zero; Rest := zeroBody |}.

Record DeploymentConfigList : Type := {
  ListMeta : metav1.ListMeta;
  Items : list DeploymentConfig
}.

(** [&oappsv1.DeploymentConfigList{}] *)
Definition zeroDeploymentConfigList : DeploymentConfigList :=
  {| ListMeta := metav1.zeroList; Items := [] |}.

End apps_types.
End oappsv1.

Import oappsv1.

(** ** sigs.k8s.io/controller-runtime/pkg/client *)
Module ctrlClient.
Section client_types.

Context `{Extern}.
(** Everything behind the client, and whatever else the callbacks close
    over: the API server's state. *)
Context {Cluster : Type}.

(** The [Client] interface, at the one resource kind the package uses. A method
    that fills or updates the object it is handed answers with the object as
    it left it. [Delete] takes the pointer as [GetDeploymentConfig] returned
    it. *)
Record Client : Type := {
  Create : DeploymentConfig → Cluster →
           (DeploymentConfig * option errors.error) * Cluster;
  Update : DeploymentConfig → Cluster →
           (DeploymentConfig * option errors.error) * Cluster;
  Delete : option DeploymentConfig → Cluster → option errors.error * Cluster;
  Get : types.NamespacedName → DeploymentConfig → Cluster →
        (DeploymentConfig * option errors.error) * Cluster;
  List : DeploymentConfigList → list ListOption → Cluster →
         (DeploymentConfigList * option errors.error) * Cluster
}.

End client_types.
End ctrlClient.

(** ** The workloads package *)
Section workloads.

Context `{Extern} `{Helpers} {Cluster : Type}.

(** Modelled from the spec: the declaration of [mutation.MutateFunc] is not
    among the sources. The spec has it take (previous-object-or-absent,
    resource-object-being-built, client) and return success or failure, and
    lets it mutate the resource object in place: the callback receives the
    previous object, the object under construction and the variadic rest,
    and answers with the object as it left it and its error. *)
Definition MutateFunc : Type :=
  option Any → DeploymentConfig → list (option Any) → Cluster →
  (DeploymentConfig * option errors.error) * Cluster.

(** *** Calls and the world *)

(** One entry per call that leaves the package: a client method with the
    arguments it was given, or a mutation callback with its three
    arguments. *)
Inductive Call : Type :=
| CallCreate (obj : DeploymentConfig)
| CallUpdate (obj : DeploymentConfig)
| CallDelete (obj : option DeploymentConfig)
| CallGet (key : types.NamespacedName) (obj : DeploymentConfig)
| CallList (into : DeploymentConfigList) (opts : list ListOption)
| CallMutate (f : MutateFunc) (prev : option Any) (target : DeploymentConfig)
             (rest : list (option Any)).

Record World : Type := {
  cluster : Cluster;
  calls : list Call
}.

(** A computation of the package: it reads and leaves a world. *)
Definition M (A : Type) : Type := World → A * World.

Definition ret {A : Type} (a : A) : M A := λ w, (a, w).

Definition bind {A B : Type} (c : M A) (k : A → M B) : M B :=
  λ w, let '(a, w') := c w in k a w'.

(** Hand [call] to the outside: log it, and let [f] act on the cluster. *)
Definition invoke {A : Type} (call : Call) (f : Cluster → A * Cluster) : M A :=
  λ w, let '(a, c') := f (cluster w) in
       (a, {| cluster := c'; calls := calls w ++ [call] |}).

Notation "'let*' x ':=' c 'in' k" := (bind c (λ x, k))
  (at level 10, x pattern, c at level 100, k at level 200).

(** The calls themselves: what is logged is what is passed. The [ctx]
    argument of the client's methods is [context.TODO()] throughout and is
    left out. *)
Definition callCreate (client : ctrlClient.Client) (obj : DeploymentConfig)
    : M (DeploymentConfig * option errors.error) :=
  invoke (CallCreate obj) (ctrlClient.Create client obj).

Definition callUpdate (client : ctrlClient.Client) (obj : DeploymentConfig)
    : M (DeploymentConfig * option errors.error) :=
  invoke (CallUpdate obj) (ctrlClient.Update client obj).

Definition callDelete (client : ctrlClient.Client)
    (obj : option DeploymentConfig) : M (option errors.error) :=
  invoke (CallDelete obj) (ctrlClient.Delete client obj).

Definition callGet (client : ctrlClient.Client) (key : types.NamespacedName)
    (obj : DeploymentConfig) : M (DeploymentConfig * option errors.error) :=
  invoke (CallGet key obj) (ctrlClient.Get client key obj).

Definition callList (client : ctrlClient.Client) (into : DeploymentConfigList)
    (opts : list ListOption)
    : M (DeploymentConfigList * option errors.error) :=
  invoke (CallList into opts) (ctrlClient.List client into opts).

Definition callMutate (f : MutateFunc) (prev : option Any)
    (target : DeploymentConfig) (rest : list (option Any))
    : M (DeploymentConfig * option errors.error) :=
  invoke (CallMutate f prev target rest) (f prev target rest).

(** *** The request *)

(** DeploymentConfigRequest objects contain all the required information to
    produce a deploymentConfig object in return. *)
Record DeploymentConfigRequest : Type := {
  Name : string;
  InstanceName : string;
  InstanceNamespace : string;
  Component : string;
  Labels : gmap string string;
  Annotations : gmap string string;
  Mutations : list MutateFunc;
  Client : option Any
}.

(** newDeploymentConfig returns a new DeploymentConfig instance for the
    given ArgoCD. *)
Definition newDeploymentConfig
    (name instanceName instanceNamespace component : string)
    (labels annotations : gmap string string) : DeploymentConfig :=
  let deploymentConfigName :=
    if negb (String.eqb name "") then name
    else GenerateResourceName instanceName component in
  {| ObjectMeta :=
       {| metav1.Name := deploymentConfigName;
          metav1.Namespace := instanceNamespace;
          metav1.Labels :=
            argoutil.MergeMaps
              (DefaultLabels deploymentConfigName instanceName component)
              labels;
          metav1.Annotations :=
            argoutil.MergeMaps
              (DefaultAnnotations instanceName instanceNamespace)
              annotations |};
     Rest := zeroBody |}.

(** *** The accessors

    [CreateDeploymentConfig] and [UpdateDeploymentConfig] return only an
    error in Go; the first component of their result here is the caller's
    object after the call, which the client may have written to. *)

Definition CreateDeploymentConfig (deploymentConfig : DeploymentConfig)
    (client : ctrlClient.Client) : M (DeploymentConfig * option errors.error) :=
  callCreate client deploymentConfig.

Definition GetDeploymentConfig (name namespace : string)
    (client : ctrlClient.Client)
    : M (option DeploymentConfig * option errors.error) :=
  let existingDeploymentConfig := zeroDeploymentConfig in
  let* (existingDeploymentConfig, err) :=
    callGet client {| types.Name := name; types.Namespace := namespace |}
            existingDeploymentConfig in
  match err with
  | Some err => ret (None, Some err)
  | None => ret (Some existingDeploymentConfig, None)
  end.

(** UpdateDeploymentConfig updates the specified DeploymentConfig using the
    provided client. *)
Definition UpdateDeploymentConfig (deploymentConfig : DeploymentConfig)
    (client : ctrlClient.Client) : M (DeploymentConfig * option errors.error) :=
  let* (_, err) :=
    GetDeploymentConfig (metav1.Name (ObjectMeta deploymentConfig))
                        (metav1.Namespace (ObjectMeta deploymentConfig))
                        client in
  match err with
  | Some err => ret (deploymentConfig, Some err)
  | None =>
      let* (deploymentConfig, err) := callUpdate client deploymentConfig in
      match err with
      | Some err => ret (deploymentConfig, Some err)
      | None => ret (deploymentConfig, None)
      end
  end.

Definition DeleteDeploymentConfig (name namespace : string)
    (client : ctrlClient.Client) : M (option errors.error) :=
  let* (existingDeploymentConfig, err) :=
    GetDeploymentConfig name namespace client in
  match err with
  | Some err =>
      if negb (errors.IsNotFound err) then ret (Some err) else ret None
  | None =>
      let* err := callDelete client existingDeploymentConfig in
      match err with
      | Some err => ret (Some err)
      | None => ret None
      end
  end.

Definition ListDeploymentConfigs (namespace : string)
    (client : ctrlClient.Client) (listOptions : list ListOption)
    : M (option DeploymentConfigList * option errors.error) :=
  let existingDeploymentConfigs := zeroDeploymentConfigList in
  let* (existingDeploymentConfigs, err) :=
    callList client existingDeploymentConfigs listOptions in
  match err with
  | Some err => ret (None, Some err)
  | None => ret (Some existingDeploymentConfigs, None)
  end.

(** *** The builder *)

(** The [for _, mutation := range request.Mutations] loop, with the two
    variables it updates: the object behind [deploymentConfig], and
    [mutationErr]. *)
Fixpoint rangeMutations (mutations : list MutateFunc)
    (deploymentConfig : DeploymentConfig) (client : option Any)
    (mutationErr : option errors.error)
    : M (DeploymentConfig * option errors.error) :=
  match mutations with
  | [] => ret (deploymentConfig, mutationErr)
  | mutation :: mutations =>
      let* (deploymentConfig, err) :=
        callMutate mutation None deploymentConfig [client] in
      let mutationErr :=
        match err with
        | Some err => Some err
        | None => mutationErr
        end in
      rangeMutations mutations deploymentConfig client mutationErr
  end.

Definition RequestDeploymentConfig_prefix : string :=
  "RequestDeploymentConfig: one or more mutation functions could not be applied: ".

Definition RequestDeploymentConfig (request : DeploymentConfigRequest)
    : M (option DeploymentConfig * option errors.error) :=
  let mutationErr : option errors.error := None in
  let deploymentConfig :=
    newDeploymentConfig (Name request) (InstanceName request)
      (InstanceNamespace request) (Component request) (Labels request)
      (Annotations request) in
  if (0 <? length (Mutations request))%nat then
    let* (deploymentConfig, mutationErr) :=
      rangeMutations (Mutations request) deploymentConfig (Client request)
                     mutationErr in
    match mutationErr with
    | Some mutationErr =>
        ret (Some deploymentConfig,
             Some (fmt.Errorf_s RequestDeploymentConfig_prefix mutationErr))
    | None => ret (Some deploymentConfig, None)
    end
  else ret (Some deploymentConfig, None).

(** *** What a run of the callbacks yields

    These are not functions of the package: they say, for the statements
    below, what the callbacks answer when each is run once, in the order of
    the list, on the object and the cluster as the one before left them. *)

(** The error of each callback, then the object and the cluster after the
    last one. *)
Fixpoint runCallbacks (mutations : list MutateFunc) (target : DeploymentConfig)
    (client : option Any) (c : Cluster)
    : list (option errors.error) * DeploymentConfig * Cluster :=
  match mutations with
  | [] => ([], target, c)
  | mutation :: mutations =>
      let '((target', err), c') := mutation None target [client] c in
      let '(errs, target'', c'') := runCallbacks mutations target' client c' in
      (err :: errs, target'', c'')
  end.

(** The failures among the answers, in order. *)
Definition failures (errs : list (option errors.error)) : list errors.error :=
  omap id errs.

(** The last failure among the answers, if any. *)
Definition lastFailure (errs : list (option errors.error))
    : option errors.error :=
  last (failures errs).

(** A log made of one entry per callback of [mutations], in order, each
    called with a nil previous object and [client] as the only variadic
    argument. *)
Definition ranAll (log : list Call) (mutations : list MutateFunc)
    (client : option Any) : Prop :=
  Forall2 (λ call mutation,
             ∃ target, call = CallMutate mutation None target [client])
          log mutations.

(** A log in which the client's [Update], or its [Delete], was called. *)
Definition callsUpdate (log : list Call) : Prop :=
  ∃ obj, CallUpdate obj ∈ log.

Definition callsDelete (log : list Call) : Prop :=
  ∃ obj, CallDelete obj ∈ log.

(** A callback that leaves the name of the object alone, whatever it is
    called with. *)
Definition keepsName (mutation : MutateFunc) : Prop :=
  ∀ prev target rest c,
    metav1.Name (ObjectMeta (mutation prev target rest c).1.1) =
    metav1.Name (ObjectMeta target).

(** The key [GetDeploymentConfig] asks the client for. *)
Definition keyOf (name namespace : string) : types.NamespacedName :=
  {| types.Name := name; types.Namespace := namespace |}.

(** The world after [log] was appended and the cluster became [c]. *)
Definition after (w : World) (c : Cluster) (log : list Call) : World :=
  {| cluster := c; calls := calls w ++ log |}.

(** The request with other callbacks, and nothing else changed. *)
Definition withMutations (request : DeploymentConfigRequest)
    (mutations : list MutateFunc) : DeploymentConfigRequest :=
  {| Name := Name request; InstanceName := InstanceName request;
     InstanceNamespace := InstanceNamespace request;
     Component := Component request; Labels := Labels request;
     Annotations := Annotations request; Mutations := mutations;
     Client := Client request |}.

(** Two callbacks that do the same whenever the previous object is nil. *)
Definition agreeOnNil (f g : MutateFunc) : Prop :=
  ∀ target rest c, f None target rest c = g None target rest c.

(** The call is one of a client method, not of a callback. *)
Definition isClientCall (call : Call) : bool :=
  match call with
  | CallMutate _ _ _ _ => false
  | _ => true
  end.

End workloads.

(** ** An in-memory cluster

    A client over a finite map from (namespace, name) to the stored object,
    in the manner of controller-runtime's fake client, together with a few
    callbacks; the statements below are evaluated on them. *)
Module fake.

Inductive ListOpt : Type :=
| InNamespace (namespace : string).

(** An [interface{}] holds a string here; the rest of a DeploymentConfig is
    its replica count. *)
Definition extern : Extern :=
  {| Any := string; Body := nat; zeroBody := 0; ListOption := ListOpt |}.

Definition helpers : Helpers :=
  {| GenerateResourceName instanceName component :=
       instanceName +:+ "-" +:+ component;
     DefaultLabels name instanceName component :=
       {[ "app" := instanceName; "name" := name; "component" := component ]};
     DefaultAnnotations instanceName instanceNamespace :=
       {[ "instance" := instanceName; "namespace" := instanceNamespace ]} |}.

#[local] Existing Instances extern helpers.

Definition Store : Type := gmap (string * string) DeploymentConfig.

Definition keyOfObject (obj : DeploymentConfig) : string * string :=
  (metav1.Namespace (ObjectMeta obj), metav1.Name (ObjectMeta obj)).

Definition doCreate (obj : DeploymentConfig) (s : Store)
    : (DeploymentConfig * option errors.error) * Store :=
  match s !! keyOfObject obj with
  | Some _ =>
      ((obj, Some (errors.NewAlreadyExists (metav1.Name (ObjectMeta obj)))), s)
  | None => ((obj, None), <[keyOfObject obj := obj]> s)
  end.

Definition doUpdate (obj : DeploymentConfig) (s : Store)
    : (DeploymentConfig * option errors.error) * Store :=
  match s !! keyOfObject obj with
  | Some _ => ((obj, None), <[keyOfObject obj := obj]> s)
  | None => ((obj, Some (errors.NewNotFound (metav1.Name (ObjectMeta obj)))), s)
  end.

Definition doDelete (obj : option DeploymentConfig) (s : Store)
    : option errors.error * Store :=
  match obj with
  | None => (Some (errors.errorString "nil object"), s)
  | Some obj =>
      match s !! keyOfObject obj with
      | Some _ => (None, delete (keyOfObject obj) s)
      | None => (Some (errors.NewNotFound (metav1.Name (ObjectMeta obj))), s)
      end
  end.

Definition doGet (key : types.NamespacedName) (obj : DeploymentConfig)
    (s : Store) : (DeploymentConfig * option errors.error) * Store :=
  match s !! (types.Namespace key, types.Name key) with
  | Some found => ((found, None), s)
  | None => ((obj, Some (errors.NewNotFound (types.Name key))), s)
  end.

Definition selects (opts : list ListOpt) (obj : DeploymentConfig) : bool :=
  forallb (λ opt, match opt with
                  | InNamespace namespace =>
                      String.eqb (metav1.Namespace (ObjectMeta obj)) namespace
                  end) opts.

Definition doList (into : DeploymentConfigList) (opts : list ListOpt)
    (s : Store) : (DeploymentConfigList * option errors.error) * Store :=
  (({| ListMeta := ListMeta into;
       Items := filter (λ obj, selects opts obj = true) (snd <$> map_to_list s) |},
    None), s).

Definition client : ctrlClient.Client :=
  {| ctrlClient.Create := doCreate; ctrlClient.Update := doUpdate;
     ctrlClient.Delete := doDelete; ctrlClient.Get := doGet;
     ctrlClient.List := doList |}.

(** A client whose server cannot be reached: every method fails with [err]
    and leaves everything as it was. *)
Definition unreachable (err : errors.error) : @ctrlClient.Client extern Store :=
  {| ctrlClient.Create obj s := ((obj, Some err), s);
     ctrlClient.Update obj s := ((obj, Some err), s);
     ctrlClient.Delete _ s := (Some err, s);
     ctrlClient.Get _ obj s := ((obj, Some err), s);
     ctrlClient.List into _ s := ((into, Some err), s) |}.

(** The in-memory client, except that deleting is refused with [err]. *)
Definition undeletable (err : errors.error) : ctrlClient.Client :=
  {| ctrlClient.Create := doCreate; ctrlClient.Update := doUpdate;
     ctrlClient.Delete _ s := (Some err, s); ctrlClient.Get := doGet;
     ctrlClient.List := doList |}.

(** Callbacks: one that sets the replica count, one that renames the object,
    one that sets a label and then fails, one that only fails. *)
Definition setReplicas (n : nat) : @MutateFunc extern Store :=
  λ _ target _ s,
    (({| ObjectMeta := ObjectMeta target; Rest := n |}, None), s).

Definition rename (name : string) : @MutateFunc extern Store :=
  λ _ target _ s,
    (({| ObjectMeta :=
           {| metav1.Name := name;
              metav1.Namespace := metav1.Namespace (ObjectMeta target);
              metav1.Labels := metav1.Labels (ObjectMeta target);
              metav1.Annotations := metav1.Annotations (ObjectMeta target) |};
         Rest := Rest target |}, None), s).

Definition labelThenFail (key value message : string)
    : @MutateFunc extern Store :=
  λ _ target _ s,
    (({| ObjectMeta :=
           {| metav1.Name := metav1.Name (ObjectMeta target);
              metav1.Namespace := metav1.Namespace (ObjectMeta target);
              metav1.Labels := <[key := value]> (metav1.Labels (ObjectMeta target));
              metav1.Annotations := metav1.Annotations (ObjectMeta target) |};
         Rest := Rest target |}, Some (errors.errorString message)), s).

Definition failWith (message : string) : @MutateFunc extern Store :=
  λ _ target _ s, ((target, Some (errors.errorString message)), s).

(** A callback that fails with the error it is given, and one that sets the
    replica count but refuses a previous object that is not nil. *)
Definition failAs (err : errors.error) : @MutateFunc extern Store :=
  λ _ target _ s, ((target, Some err), s).

Definition setReplicasOnCreate (n : nat) : @MutateFunc extern Store :=
  λ prev target _ s,
    match prev with
    | None => (({| ObjectMeta := ObjectMeta target; Rest := n |}, None), s)
    | Some _ => ((target, Some (errors.errorString "not a creation")), s)
    end.

(** A callback that stores the object under construction in the cluster. *)
Definition store : @MutateFunc extern Store :=
  λ _ target _ s,
    ((target, None),
     <[(metav1.Namespace (ObjectMeta target),
        metav1.Name (ObjectMeta target)) := target]> s).

(** [obj] with [n] replicas. *)
Definition scaled (obj : DeploymentConfig) (n : nat) : DeploymentConfig :=
  {| ObjectMeta := ObjectMeta obj; Rest := n |}.

(** A world with nothing stored and nothing called yet, and one with just
    [obj] stored. *)
Definition emptyWorld : @World extern Store := {| cluster := ∅; calls := [] |}.

Definition worldWith (obj : DeploymentConfig) : @World extern Store :=
  {| cluster := {[ keyOfObject obj := obj ]}; calls := [] |}.

(** The request of the spec's scenarios: instance "argocd", component
    "server", the label tier=x. *)
Definition request (name : string) (mutations : list (@MutateFunc extern Store))
    : DeploymentConfigRequest :=
  {| Name := name; InstanceName := "argocd"; InstanceNamespace := "argocd-ns";
     Component := "server"; Labels := {[ "tier" := "x" ]}; Annotations := ∅;
     Mutations := mutations; Client := Some "client" |}.

(** The object of the request named "web". *)
Definition web : DeploymentConfig :=
  newDeploymentConfig "web" "argocd" "argocd-ns" "server" {[ "tier" := "x" ]} ∅.

End fake.

(** ** Properties *)
Section properties.

Context `{Extern} `{Helpers} {Cluster : Type}.

Implicit Types (w : @World _ Cluster) (client : @ctrlClient.Client _ Cluster).
Implicit Types (request : @DeploymentConfigRequest _ Cluster).
Implicit Types (mutations : list (@MutateFunc _ Cluster)).
Implicit Types (errs : list (option errors.error)).
Implicit Types (log : list (@Call _ Cluster)).

(** The object [RequestDeploymentConfig] builds from the fields of the
    request, before any callback runs. *)
Local Abbreviation built request :=
  (newDeploymentConfig (Name request) (InstanceName request)
     (InstanceNamespace request) (Component request) (Labels request)
     (Annotations request)).

(** *** The world *)

Lemma after_nil w : after w (cluster w) [] = w.
Proof. destruct w; unfold after; simpl. by rewrite app_nil_r. Qed.

Lemma after_after w c1 c2 log1 log2 :
  after (after w c1 log1) c2 log2 = after w c2 (log1 ++ log2).
Proof. unfold after; simpl. by rewrite app_assoc. Qed.

Lemma invoke_eq {A : Type} (call : Call) (f : Cluster → A * Cluster) w :
  invoke call f w = ((f (cluster w)).1, after w (f (cluster w)).2 [call]).
Proof. unfold invoke, after. by destruct (f (cluster w)). Qed.

(** *** The accessors, unfolded once *)

Lemma GetDeploymentConfig_eq name namespace client w :
  GetDeploymentConfig name namespace client w =
  let r :=
    ctrlClient.Get client (keyOf name namespace) zeroDeploymentConfig
                   (cluster w) in
  (match r.1.2 with
   | Some err => (None, Some err)
   | None => (Some r.1.1, None)
   end,
   after w r.2 [CallGet (keyOf name namespace) zeroDeploymentConfig]).
Proof.
  unfold GetDeploymentConfig, bind, callGet. rewrite invoke_eq.
  fold (keyOf name namespace).
  destruct (ctrlClient.Get client _ _ _) as [[obj [err|]] c']; reflexivity.
Qed.

(** *** The failures of a run *)

Lemma lastFailure_cons (err : option errors.error) errs :
  lastFailure (err :: errs) =
  match lastFailure errs with
  | Some e => Some e
  | None => err
  end.
Proof.
  unfold lastFailure, failures. destruct err as [e|]; simpl.
  - by rewrite last_cons.
  - by destruct (last _).
Qed.

Lemma lastFailure_is_Some errs :
  failures errs ≠ [] → is_Some (lastFailure errs).
Proof.
  unfold lastFailure. by rewrite last_is_Some.
Qed.

Lemma runCallbacks_length mutations :
  ∀ target (client : option Any) (c : Cluster),
    length (runCallbacks mutations target client c).1.1 = length mutations.
Proof.
  induction mutations as [|mutation mutations IH]; intros target client c;
    [done|].
  simpl. destruct (mutation None target [client] c) as [[target' err] c'].
  specialize (IH target' client c').
  destruct (runCallbacks mutations target' client c') as [[errs target''] c''].
  simpl in *. by rewrite IH.
Qed.

(** The loop runs every callback, whatever the ones before answered, and
    leaves in [mutationErr] the last failure, or what it held when none
    failed. *)
Lemma rangeMutations_run mutations :
  ∀ target (client : option Any) (mutationErr : option errors.error) w
    errs target' c',
    runCallbacks mutations target client (cluster w) = (errs, target', c') →
    ∃ log,
      rangeMutations mutations target client mutationErr w =
        ((target',
          match lastFailure errs with
          | Some err => Some err
          | None => mutationErr
          end), after w c' log)
      ∧ ranAll log mutations client.
Proof.
  induction mutations as [|mutation mutations IH];
    intros target client mutationErr w errs target' c' Hrun.
  - simpl in Hrun. injection Hrun as <- <- <-.
    exists []. split; [|constructor].
    simpl. unfold ret. by rewrite after_nil.
  - simpl in Hrun.
    destruct (mutation None target [client] (cluster w))
      as [[target1 err1] c1] eqn:Hcall.
    destruct (runCallbacks mutations target1 client c1)
      as [[errs2 target2] c2] eqn:Hrest.
    injection Hrun as <- <- <-.
    set (call := CallMutate mutation None target [client]).
    destruct (IH target1 client
                 (match err1 with Some err => Some err | None => mutationErr end)
                 (after w c1 [call]) errs2 target2 c2 Hrest)
      as (log & Hloop & Hlog).
    exists (call :: log). split.
    + simpl. unfold bind, callMutate. rewrite invoke_eq, Hcall. simpl. fold call.
      rewrite Hloop, after_after, lastFailure_cons. simpl.
      by destruct (lastFailure errs2), err1.
    + constructor; [by exists target|done].
Qed.

Lemma ranAll_entry log mutations (client : option Any) :
  ranAll log mutations client →
  ∀ f prev target rest,
    CallMutate f prev target rest ∈ log → prev = None ∧ rest = [client].
Proof.
  induction 1 as [|call mutation log mutations [target' ->] _ IH];
    intros f prev target rest Hin.
  - by apply elem_of_nil in Hin.
  - apply elem_of_cons in Hin as [Heq|Hin]; [|by eapply IH].
    by injection Heq as -> -> -> ->.
Qed.

Lemma runCallbacks_keepsName mutations :
  Forall keepsName mutations →
  ∀ target (client : option Any) (c : Cluster),
    metav1.Name (ObjectMeta (runCallbacks mutations target client c).1.2) =
    metav1.Name (ObjectMeta target).
Proof.
  induction 1 as [|mutation mutations Hkeeps _ IH]; intros target client c;
    [done|].
  simpl. specialize (Hkeeps None target [client] c).
  destruct (mutation None target [client] c) as [[target' err] c'].
  specialize (IH target' client c').
  destruct (runCallbacks mutations target' client c') as [[errs target''] c''].
  simpl in *. congruence.
Qed.

(** The builder, in terms of a run of its callbacks. *)
Lemma RequestDeploymentConfig_run request w errs target c' :
  runCallbacks (Mutations request) (built request) (Client request) (cluster w)
    = (errs, target, c') →
  ∃ log,
    RequestDeploymentConfig request w =
      ((Some target,
        match lastFailure errs with
        | Some err => Some (fmt.Errorf_s RequestDeploymentConfig_prefix err)
        | None => None
        end), after w c' log)
    ∧ ranAll log (Mutations request) (Client request).
Proof.
  intros Hrun. unfold RequestDeploymentConfig.
  destruct (Mutations request) as [|mutation mutations] eqn:Hms.
  - simpl in *. injection Hrun as <- <- <-.
    exists []. split; [|constructor].
    unfold ret. by rewrite after_nil.
  - destruct (rangeMutations_run _ _ _ None w _ _ _ Hrun) as (log & Hloop & Hlog).
    exists log. split; [|done].
    change (0 <? length (mutation :: mutations))%nat with true. cbv iota.
    unfold bind. rewrite Hloop.
    by destruct (lastFailure errs).
Qed.

(** *** The builder *)

(** C1. When at least one callback of the request fails,
    [RequestDeploymentConfig] still runs every callback, in the order of the
    list (the log holds one entry per callback: it does not stop at a
    failure), and returns a non-nil object, as the callbacks left it, with a
    non-nil error whose message is the fixed prefix followed by the message of
    the last failing callback; the failures before it are not reported. *)
Theorem RequestDeploymentConfig_reports_last_failure request w errs target c' :
  runCallbacks (Mutations request) (built request) (Client request) (cluster w)
    = (errs, target, c') →
  failures errs ≠ [] →
  ∃ err log,
    lastFailure errs = Some err
    ∧ ranAll log (Mutations request) (Client request)
    ∧ length log = length (Mutations request)
    ∧ RequestDeploymentConfig request w =
        ((Some target,
          Some (errors.errorString
                  (RequestDeploymentConfig_prefix +:+ errors.Error err))),
         after w c' log).
Proof.
  intros Hrun Hfails.
  destruct (lastFailure_is_Some errs Hfails) as [err Hlast].
  destruct (RequestDeploymentConfig_run request w errs target c' Hrun)
    as (log & Hreq & Hlog).
  exists err, log. repeat split; try done.
  - by eapply Forall2_length.
  - by rewrite Hreq, Hlast.
Qed.

(** C9. Every callback [RequestDeploymentConfig] invokes receives nil as its
    first argument: the calls it adds to the log are one per callback of the
    request, in order, and each entry has a nil previous object, whatever the
    request and the position in the list. *)
Theorem RequestDeploymentConfig_previous_object_is_nil request w :
  ∃ c' log,
    (RequestDeploymentConfig request w).2 = after w c' log
    ∧ ranAll log (Mutations request) (Client request)
    ∧ ∀ f prev target rest, CallMutate f prev target rest ∈ log → prev = None.
Proof.
  destruct (runCallbacks (Mutations request) (built request) (Client request)
              (cluster w)) as [[errs target] c'] eqn:Hrun.
  destruct (RequestDeploymentConfig_run request w errs target c' Hrun)
    as (log & Hreq & Hlog).
  exists c', log. rewrite Hreq. repeat split; try done.
  intros f prev target' rest Hin.
  by destruct (ranAll_entry log _ _ Hlog f prev target' rest Hin).
Qed.

(** C10. With an empty mutation list [RequestDeploymentConfig] succeeds: it
    returns the object [newDeploymentConfig] built from the request and a nil
    error, and calls nothing. *)
Theorem RequestDeploymentConfig_without_mutations request w :
  Mutations request = [] →
  RequestDeploymentConfig request w = ((Some (built request), None), w).
Proof.
  intros Hnone. unfold RequestDeploymentConfig. by rewrite Hnone.
Qed.

(** C4. With a non-empty [Name] in the request, the object
    [RequestDeploymentConfig] builds with [newDeploymentConfig] carries that
    name verbatim; it is the name of the returned object whenever the
    callbacks leave the name alone, and so whenever there is no callback. *)
Theorem explicit_name_is_kept request :
  Name request ≠ "" →
  metav1.Name (ObjectMeta (built request)) = Name request
  ∧ ∀ w, Forall keepsName (Mutations request) →
         ∃ obj, (RequestDeploymentConfig request w).1.1 = Some obj
                ∧ metav1.Name (ObjectMeta obj) = Name request.
Proof.
  intros Hname.
  assert (metav1.Name (ObjectMeta (built request)) = Name request) as Hbuilt.
  { unfold newDeploymentConfig. simpl.
    destruct (String.eqb_spec (Name request) ""); [done|reflexivity]. }
  split; [done|]. intros w Hkeep.
  pose proof (runCallbacks_keepsName _ Hkeep (built request) (Client request)
                (cluster w)) as Hrun.
  destruct (runCallbacks (Mutations request) (built request) (Client request)
              (cluster w)) as [[errs target] c'] eqn:Heq.
  destruct (RequestDeploymentConfig_run request w errs target c' Heq)
    as (log & Hreq & _).
  exists target. rewrite Hreq. simpl in *. split; [done|congruence].
Qed.

(** C5. With an empty [Name] in the request, the name of the built object is
    [GenerateResourceName] of the instance name and the component, so two
    requests that agree on these two get the same name; for the instance
    "argocd" and the component "server" it is [GenerateResourceName "argocd"
    "server"]. *)
Theorem default_name_is_generated :
  (∀ request,
     Name request = "" →
     metav1.Name (ObjectMeta (built request)) =
     GenerateResourceName (InstanceName request) (Component request))
  ∧ (∀ request request',
       Name request = "" → Name request' = "" →
       InstanceName request = InstanceName request' →
       Component request = Component request' →
       metav1.Name (ObjectMeta (built request)) =
       metav1.Name (ObjectMeta (built request')))
  ∧ (∀ request,
       Name request = "" → InstanceName request = "argocd" →
       Component request = "server" →
       metav1.Name (ObjectMeta (built request)) =
       GenerateResourceName "argocd" "server").
Proof.
  assert (∀ request, Name request = "" →
            metav1.Name (ObjectMeta (built request)) =
            GenerateResourceName (InstanceName request) (Component request))
    as Hgen.
  { intros request Hname. unfold newDeploymentConfig. by rewrite Hname. }
  split; [done|]. split.
  - intros request request' Hname Hname' Hinstance Hcomponent.
    by rewrite !Hgen, Hinstance, Hcomponent.
  - intros request Hname Hinstance Hcomponent.
    by rewrite Hgen, Hinstance, Hcomponent.
Qed.

(** C6. The labels of the built object are the default labels merged with the
    labels of the request, and its annotations the default annotations merged
    with those of the request: a key of the request carries the request's
    value, also when the defaults have it; any other key carries what the
    defaults give it; so the keys are those of either map. With the labels
    tier=x over defaults that have app=argocd, the result has both keys. *)
Theorem labels_and_annotations_are_merged request :
  let obj := built request in
  let defaultLabels :=
    DefaultLabels (metav1.Name (ObjectMeta obj)) (InstanceName request)
                  (Component request) in
  let defaultAnnotations :=
    DefaultAnnotations (InstanceName request) (InstanceNamespace request) in
  (∀ key,
     metav1.Labels (ObjectMeta obj) !! key =
     match Labels request !! key with
     | Some value => Some value
     | None => defaultLabels !! key
     end)
  ∧ (∀ key,
       metav1.Annotations (ObjectMeta obj) !! key =
       match Annotations request !! key with
       | Some value => Some value
       | None => defaultAnnotations !! key
       end)
  ∧ dom (metav1.Labels (ObjectMeta obj)) =
    dom defaultLabels ∪ dom (Labels request)
  ∧ dom (metav1.Annotations (ObjectMeta obj)) =
    dom defaultAnnotations ∪ dom (Annotations request)
  ∧ (Labels request = {[ "tier" := "x" ]} →
     defaultLabels !! "app" = Some "argocd" →
     metav1.Labels (ObjectMeta obj) !! "tier" = Some "x"
     ∧ metav1.Labels (ObjectMeta obj) !! "app" = Some "argocd").
Proof.
  intros obj defaultLabels defaultAnnotations.
  assert (∀ (defaults supplied : gmap string string) key,
            argoutil.MergeMaps defaults supplied !! key =
            match supplied !! key with
            | Some value => Some value
            | None => defaults !! key
            end) as Hmerge.
  { intros defaults supplied key. unfold argoutil.MergeMaps.
    rewrite lookup_union. by destruct (supplied !! key), (defaults !! key). }
  assert (∀ defaults supplied : gmap string string,
            dom (argoutil.MergeMaps defaults supplied) =
            dom defaults ∪ dom supplied) as Hdom.
  { intros defaults supplied. unfold argoutil.MergeMaps.
    rewrite dom_union_L. apply (comm_L (∪)). }
  split; [intros key; apply Hmerge|].
  split; [intros key; apply Hmerge|].
  split; [apply Hdom|]. split; [apply Hdom|].
  intros Hsupplied Hdefault. subst obj. simpl. rewrite !Hmerge, Hsupplied. split.
  - by rewrite lookup_singleton_eq.
  - rewrite lookup_singleton_ne; [done|discriminate].
Qed.

(** *** The accessors *)

(** C7. [GetDeploymentConfig] returns what the client's [Get] answered: on an
    error, a nil object and that very error, so its error is a NotFound
    exactly when the client's is (the resource is absent) and any other
    failure of the client comes out unchanged; on success, the object the
    client filled and a nil error. *)
Theorem GetDeploymentConfig_returns_the_answer
    name namespace client w obj err c' :
  ctrlClient.Get client (keyOf name namespace) zeroDeploymentConfig (cluster w)
    = ((obj, err), c') →
  (∀ e, err = Some e →
        (GetDeploymentConfig name namespace client w).1 = (None, Some e))
  ∧ (err = None →
     (GetDeploymentConfig name namespace client w).1 = (Some obj, None))
  ∧ (∀ e, (GetDeploymentConfig name namespace client w).1.2 = Some e
          ∧ errors.IsNotFound e = true
          ↔ err = Some e ∧ errors.IsNotFound e = true)
  ∧ (GetDeploymentConfig name namespace client w).2 =
    after w c' [CallGet (keyOf name namespace) zeroDeploymentConfig].
Proof.
  intros Hget. rewrite GetDeploymentConfig_eq, Hget. simpl.
  split; [by intros e ->|]. split; [by intros ->|]. split; [|done].
  intros e. by destruct err.
Qed.

(** C2. When the get that [UpdateDeploymentConfig] starts with answers
    NotFound (nothing is stored under the name and namespace of the object),
    it returns that error, leaves the object as it was, and the one call it
    has made is the [Get]: the client's [Update] is not called. *)
Theorem UpdateDeploymentConfig_absent_returns_NotFound
    (deploymentConfig : DeploymentConfig) client w obj err c' :
  ctrlClient.Get client
      (keyOf (metav1.Name (ObjectMeta deploymentConfig))
             (metav1.Namespace (ObjectMeta deploymentConfig)))
      zeroDeploymentConfig (cluster w)
    = ((obj, Some err), c') →
  errors.IsNotFound err = true →
  ∃ log,
    UpdateDeploymentConfig deploymentConfig client w =
      ((deploymentConfig, Some err), after w c' log)
    ∧ log = [CallGet (keyOf (metav1.Name (ObjectMeta deploymentConfig))
                            (metav1.Namespace (ObjectMeta deploymentConfig)))
                     zeroDeploymentConfig]
    ∧ ¬ callsUpdate log.
Proof.
  intros Hget _. eexists. split; [|split; [reflexivity|]].
  - unfold UpdateDeploymentConfig, bind.
    by rewrite GetDeploymentConfig_eq, Hget.
  - intros [updated Hin]. apply list_elem_of_singleton in Hin. discriminate.
Qed.

(** C3. When the get that [DeleteDeploymentConfig] starts with answers
    NotFound (an error [errors.IsNotFound] is true of), it returns a nil
    error and the client's [Delete] is not called; on any other error of the
    get it returns that error; and when the get succeeds it calls [Delete] on
    the object found and returns what [Delete] answered, its error if it has
    one. *)
Theorem DeleteDeploymentConfig_tolerates_NotFound
    name namespace client w obj err c' :
  ctrlClient.Get client (keyOf name namespace) zeroDeploymentConfig (cluster w)
    = ((obj, err), c') →
  (∀ e, err = Some e → errors.IsNotFound e = true →
        ∃ log,
          DeleteDeploymentConfig name namespace client w = (None, after w c' log)
          ∧ log = [CallGet (keyOf name namespace) zeroDeploymentConfig]
          ∧ ¬ callsDelete log)
  ∧ (∀ e, err = Some e → errors.IsNotFound e = false →
          DeleteDeploymentConfig name namespace client w =
            (Some e,
             after w c' [CallGet (keyOf name namespace) zeroDeploymentConfig]))
  ∧ (err = None →
     ∀ answer c'', ctrlClient.Delete client (Some obj) c' = (answer, c'') →
       DeleteDeploymentConfig name namespace client w =
         (answer,
          after w c'' [CallGet (keyOf name namespace) zeroDeploymentConfig;
                       CallDelete (Some obj)])).
Proof.
  intros Hget.
  assert (∀ e, err = Some e →
            DeleteDeploymentConfig name namespace client w =
              (if negb (errors.IsNotFound e) then Some e else None,
               after w c' [CallGet (keyOf name namespace) zeroDeploymentConfig]))
    as Hfailed.
  { intros e ->. unfold DeleteDeploymentConfig, bind.
    rewrite GetDeploymentConfig_eq, Hget. simpl.
    by destruct (errors.IsNotFound e). }
  split; [|split].
  - intros e He Hnf. eexists. split; [|split; [reflexivity|]].
    + by rewrite (Hfailed e He), Hnf.
    + intros [deleted Hin]. apply list_elem_of_singleton in Hin. discriminate.
  - intros e He Hnf. by rewrite (Hfailed e He), Hnf.
  - intros -> answer c'' Hdelete. unfold DeleteDeploymentConfig, bind.
    rewrite GetDeploymentConfig_eq, Hget. simpl.
    unfold callDelete. rewrite invoke_eq. simpl.
    rewrite Hdelete, after_after. simpl.
    by destruct answer.
Qed.

(** C8. [ListDeploymentConfigs] makes one call, the client's [List] with the
    caller's options as they are and an empty list to fill; on success it
    returns the list exactly as the client filled it and a nil error, on
    failure a nil list and the client's error. Its [namespace] argument plays
    no part. *)
Theorem ListDeploymentConfigs_forwards namespace client
    (listOptions : list ListOption) w into err c' :
  ctrlClient.List client zeroDeploymentConfigList listOptions (cluster w)
    = ((into, err), c') →
  (ListDeploymentConfigs namespace client listOptions w).2 =
    after w c' [CallList zeroDeploymentConfigList listOptions]
  ∧ (err = None →
     (ListDeploymentConfigs namespace client listOptions w).1 = (Some into, None))
  ∧ (∀ e, err = Some e →
          (ListDeploymentConfigs namespace client listOptions w).1 = (None, Some e))
  ∧ (∀ namespace',
       ListDeploymentConfigs namespace' client listOptions w =
       ListDeploymentConfigs namespace client listOptions w).
Proof.
  intros Hlist.
  assert (∀ ns, ListDeploymentConfigs ns client listOptions w =
                (match err with
                 | Some e => (None, Some e)
                 | None => (Some into, None)
                 end, after w c' [CallList zeroDeploymentConfigList listOptions]))
    as Heq.
  { intros ns. unfold ListDeploymentConfigs, bind, callList.
    rewrite invoke_eq, Hlist. simpl. by destruct err. }
  rewrite !Heq. simpl.
  split; [done|]. split; [by intros ->|]. split; [by intros e ->|].
  intros namespace'. by rewrite Heq.
Qed.

(** *** More on the accessors *)

(** X1. Creating is one call: the client's [Create] on the caller's object, with
    no get before it; what the client answers (an AlreadyExists as much as
    anything else) is what comes back. *)
Theorem CreateDeploymentConfig_is_one_call
    (deploymentConfig : DeploymentConfig) client w created answer c' :
  ctrlClient.Create client deploymentConfig (cluster w)
    = ((created, answer), c') →
  CreateDeploymentConfig deploymentConfig client w =
    ((created, answer), after w c' [CallCreate deploymentConfig]).
Proof.
  intros Hcreate. unfold CreateDeploymentConfig, callCreate.
  by rewrite invoke_eq, Hcreate.
Qed.

(** X2. Whatever error the get of [UpdateDeploymentConfig] meets, a NotFound or
    any other, is returned as it is; the object is left alone and the
    client's [Update] is not called. *)
Theorem UpdateDeploymentConfig_stops_at_get_error
    (deploymentConfig : DeploymentConfig) client w obj err c' :
  ctrlClient.Get client
      (keyOf (metav1.Name (ObjectMeta deploymentConfig))
             (metav1.Namespace (ObjectMeta deploymentConfig)))
      zeroDeploymentConfig (cluster w)
    = ((obj, Some err), c') →
  ∃ log,
    UpdateDeploymentConfig deploymentConfig client w =
      ((deploymentConfig, Some err), after w c' log)
    ∧ length log = 1
    ∧ ¬ callsUpdate log.
Proof.
  intros Hget. eexists. split; [|split].
  - unfold UpdateDeploymentConfig, bind.
    by rewrite GetDeploymentConfig_eq, Hget.
  - reflexivity.
  - intros [updated Hin]. apply list_elem_of_singleton in Hin. discriminate.
Qed.

(** X3. When the get of [UpdateDeploymentConfig] succeeds, the client's [Update]
    is called next, on the caller's object and not on the one the get
    fetched; its answer, error or not, is the result, with the object as
    [Update] left it. *)
Theorem UpdateDeploymentConfig_forwards_the_object
    (deploymentConfig : DeploymentConfig) client w obj c' updated answer c'' :
  ctrlClient.Get client
      (keyOf (metav1.Name (ObjectMeta deploymentConfig))
             (metav1.Namespace (ObjectMeta deploymentConfig)))
      zeroDeploymentConfig (cluster w)
    = ((obj, None), c') →
  ctrlClient.Update client deploymentConfig c' = ((updated, answer), c'') →
  UpdateDeploymentConfig deploymentConfig client w =
    ((updated, answer),
     after w c''
       [CallGet (keyOf (metav1.Name (ObjectMeta deploymentConfig))
                       (metav1.Namespace (ObjectMeta deploymentConfig)))
                zeroDeploymentConfig;
        CallUpdate deploymentConfig]).
Proof.
  intros Hget Hupdate. unfold UpdateDeploymentConfig, bind.
  rewrite GetDeploymentConfig_eq, Hget. simpl.
  unfold callUpdate. rewrite invoke_eq. simpl.
  rewrite Hupdate, after_after. simpl. by destruct answer.
Qed.

(** X4. [GetDeploymentConfig] and [ListDeploymentConfigs] return either an object
    or an error, never both and never neither, whatever the client does. *)
Theorem Get_and_List_return_object_or_error name namespace client
    (listOptions : list ListOption) w :
  (is_Some (GetDeploymentConfig name namespace client w).1.1
   ↔ (GetDeploymentConfig name namespace client w).1.2 = None)
  ∧ (is_Some (ListDeploymentConfigs namespace client listOptions w).1.1
     ↔ (ListDeploymentConfigs namespace client listOptions w).1.2 = None).
Proof.
  split.
  - rewrite GetDeploymentConfig_eq. simpl.
    destruct (ctrlClient.Get client _ _ _) as [[obj [err|]] c']; simpl.
    + split; [by intros [? ?]|done].
    + split; [done|by eexists].
  - unfold ListDeploymentConfigs, bind, callList. rewrite invoke_eq.
    destruct (ctrlClient.List client _ _ _) as [[into [err|]] c']; simpl.
    + split; [by intros [? ?]|done].
    + split; [done|by eexists].
Qed.

(** *** More on the builder *)

Lemma lastFailure_app errs1 errs2 :
  lastFailure (errs1 ++ errs2) =
  match lastFailure errs2 with
  | Some err => Some err
  | None => lastFailure errs1
  end.
Proof. unfold lastFailure, failures. by rewrite omap_app, last_app. Qed.

Lemma lastFailure_None errs : lastFailure errs = None ↔ failures errs = [].
Proof. unfold lastFailure. apply last_None. Qed.

Lemma runCallbacks_app mutations1 mutations2 :
  ∀ target (client : option Any) (c : Cluster),
    runCallbacks (mutations1 ++ mutations2) target client c =
    let '(errs1, target1, c1) := runCallbacks mutations1 target client c in
    let '(errs2, target2, c2) := runCallbacks mutations2 target1 client c1 in
    ((errs1 ++ errs2)%list, target2, c2).
Proof.
  induction mutations1 as [|mutation mutations1 IH]; intros target client c.
  - simpl. by destruct (runCallbacks mutations2 target client c) as [[? ?] ?].
  - simpl. destruct (mutation None target [client] c) as [[target' err] c'].
    rewrite IH.
    destruct (runCallbacks mutations1 target' client c') as [[errs1 target1] c1].
    by destruct (runCallbacks mutations2 target1 client c1) as [[? ?] ?].
Qed.

Lemma runCallbacks_agree mutations mutations' :
  Forall2 agreeOnNil mutations mutations' →
  ∀ target (client : option Any) (c : Cluster),
    runCallbacks mutations target client c =
    runCallbacks mutations' target client c.
Proof.
  induction 1 as [|f g mutations mutations' Hfg _ IH]; intros target client c;
    [done|].
  simpl. rewrite (Hfg target [client] c).
  destruct (g None target [client] c) as [[target' err] c']. by rewrite IH.
Qed.

(** X5. [RequestDeploymentConfig] always returns an object, the one the callbacks
    left, and leaves the cluster as they left it; its error is nil exactly
    when no callback failed, so also when every callback of a non-empty list
    succeeded. *)
Theorem RequestDeploymentConfig_fails_iff_a_callback_fails
    request w errs target c' :
  runCallbacks (Mutations request) (built request) (Client request) (cluster w)
    = (errs, target, c') →
  (RequestDeploymentConfig request w).1.1 = Some target
  ∧ cluster (RequestDeploymentConfig request w).2 = c'
  ∧ ((RequestDeploymentConfig request w).1.2 = None ↔ failures errs = []).
Proof.
  intros Hrun.
  destruct (RequestDeploymentConfig_run request w errs target c' Hrun)
    as (log & Hreq & _).
  rewrite Hreq. simpl. split; [done|]. split; [done|].
  rewrite <- lastFailure_None. by destruct (lastFailure errs).
Qed.

(** X6. [RequestDeploymentConfig] calls no method of a client: every call it
    adds to the log is a call of a callback. What reaches the cluster does so
    through the callbacks only. *)
Theorem RequestDeploymentConfig_calls_no_client request w :
  ∃ c' log,
    (RequestDeploymentConfig request w).2 = after w c' log
    ∧ Forall (λ call, isClientCall call = false) log.
Proof.
  destruct (runCallbacks (Mutations request) (built request) (Client request)
              (cluster w)) as [[errs target] c'] eqn:Hrun.
  destruct (RequestDeploymentConfig_run request w errs target c' Hrun)
    as (log & Hreq & Hlog).
  exists c', log. rewrite Hreq. split; [done|].
  eapply Forall2_Forall_l; [exact Hlog|].
  apply Forall_true. by intros mutation call [target' ->].
Qed.

Lemma lastFailure_elem_of errs (err : errors.error) :
  lastFailure errs = Some err → Some err ∈ errs.
Proof.
  unfold lastFailure, failures. intros Hlast.
  apply last_Some_elem_of, list_elem_of_omap in Hlast as (answer & Hin & Hid).
  simpl in Hid. by subst answer.
Qed.

Lemma plain_message_has_no_status (s : string) :
  errors.IsNotFound (errors.errorString s) = false
  ∧ errors.IsAlreadyExists (errors.errorString s) = false.
Proof. split; reflexivity. Qed.

(** X7. The error [RequestDeploymentConfig] returns is a plain message: the fixed
    prefix followed by the message of the error one of its callbacks answered
    in this run, the last of them to fail. The kind of that error is lost:
    the returned error is never a NotFound nor an AlreadyExists, also when
    the callback's was. *)
Theorem RequestDeploymentConfig_error_is_a_message request w err :
  (RequestDeploymentConfig request w).1.2 = Some err →
  errors.IsNotFound err = false
  ∧ errors.IsAlreadyExists err = false
  ∧ ∃ cause,
      Some cause ∈
        (runCallbacks (Mutations request) (built request) (Client request)
           (cluster w)).1.1
      ∧ lastFailure
          (runCallbacks (Mutations request) (built request) (Client request)
             (cluster w)).1.1 = Some cause
      ∧ err = errors.errorString
                (RequestDeploymentConfig_prefix +:+ errors.Error cause).
Proof.
  destruct (runCallbacks (Mutations request) (built request) (Client request)
              (cluster w)) as [[errs target] c'] eqn:Hrun.
  destruct (RequestDeploymentConfig_run request w errs target c' Hrun)
    as (log & Hreq & _).
  rewrite Hreq. simpl.
  destruct (lastFailure errs) as [cause|] eqn:Hlast; [|done].
  intros [= <-]. unfold fmt.Errorf_s.
  split; [apply plain_message_has_no_status|].
  split; [apply plain_message_has_no_status|].
  exists cause. split; [by apply lastFailure_elem_of|done].
Qed.

(** X8. Callbacks added at the end of a request's list run on what the request
    built without them: the object and the cluster are those the added
    callbacks leave when run from there, and the error is that of the last
    added callback to fail, or, when none of them fails, the error the
    request gave without them. *)
Theorem RequestDeploymentConfig_with_more_mutations
    request mutations w target1 err1 w1 errs target2 c2 :
  RequestDeploymentConfig request w = ((Some target1, err1), w1) →
  runCallbacks mutations target1 (Client request) (cluster w1)
    = (errs, target2, c2) →
  (RequestDeploymentConfig
     (withMutations request (Mutations request ++ mutations)) w).1
    = (Some target2,
       match lastFailure errs with
       | Some err =>
           Some (errors.errorString
                   (RequestDeploymentConfig_prefix +:+ errors.Error err))
       | None => err1
       end)
  ∧ cluster
      (RequestDeploymentConfig
         (withMutations request (Mutations request ++ mutations)) w).2 = c2.
Proof.
  intros Hfirst Hmore.
  destruct (runCallbacks (Mutations request) (built request) (Client request)
              (cluster w)) as [[errs1 target1'] c1] eqn:Hrun1.
  destruct (RequestDeploymentConfig_run request w errs1 target1' c1 Hrun1)
    as (log1 & Hreq1 & _).
  rewrite Hfirst in Hreq1. injection Hreq1 as -> -> ->. simpl in Hmore.
  assert (runCallbacks
            (Mutations (withMutations request (Mutations request ++ mutations)))
            (built (withMutations request (Mutations request ++ mutations)))
            (Client (withMutations request (Mutations request ++ mutations)))
            (cluster w) = ((errs1 ++ errs)%list, target2, c2)) as Hrun.
  { simpl. by rewrite runCallbacks_app, Hrun1, Hmore. }
  destruct (RequestDeploymentConfig_run _ w _ _ _ Hrun) as (log & Hreq & _).
  rewrite Hreq. simpl. split; [|done].
  rewrite lastFailure_app. by destruct (lastFailure errs).
Qed.

(** X9. What [RequestDeploymentConfig] returns and does to the cluster depends on
    the callbacks only through what they do with a nil previous object:
    replacing each by one that agrees with it there changes nothing. *)
Theorem RequestDeploymentConfig_only_uses_nil_previous
    request mutations mutations' w :
  Forall2 agreeOnNil mutations mutations' →
  (RequestDeploymentConfig (withMutations request mutations) w).1 =
  (RequestDeploymentConfig (withMutations request mutations') w).1
  ∧ cluster (RequestDeploymentConfig (withMutations request mutations) w).2 =
    cluster (RequestDeploymentConfig (withMutations request mutations') w).2.
Proof.
  intros Hagree.
  destruct (runCallbacks mutations' (built request) (Client request) (cluster w))
    as [[errs target] c'] eqn:Hrun'.
  pose proof (runCallbacks_agree _ _ Hagree (built request) (Client request)
                (cluster w)) as Hsame.
  rewrite Hrun' in Hsame.
  destruct (RequestDeploymentConfig_run (withMutations request mutations) w
              errs target c' Hsame) as (log & -> & _).
  destruct (RequestDeploymentConfig_run (withMutations request mutations') w
              errs target c' Hrun') as (log' & -> & _).
  done.
Qed.

End properties.

(** ** The properties on the in-memory cluster *)
Section witnesses.

#[local] Existing Instances fake.extern fake.helpers.

(** Three callbacks, the first two failing: all three have run (the replica
    count is the third's, the label the second's), and the error reports the
    second failure only. *)
Lemma RequestDeploymentConfig_reports_last_failure_witness :
  ∃ target log,
    RequestDeploymentConfig
      (fake.request ""
         [fake.failWith "first"; fake.labelThenFail "k" "v" "second";
          fake.setReplicas 5])
      fake.emptyWorld
    = ((Some target,
        Some (errors.errorString
                "RequestDeploymentConfig: one or more mutation functions could not be applied: second")),
       after fake.emptyWorld ∅ log)
    ∧ length log = 3
    ∧ Rest target = 5
    ∧ metav1.Labels (ObjectMeta target) !! "k" = Some "v".
Proof.
  destruct (RequestDeploymentConfig_reports_last_failure
              (fake.request ""
                 [fake.failWith "first"; fake.labelThenFail "k" "v" "second";
                  fake.setReplicas 5])
              fake.emptyWorld _ _ _ eq_refl)
    as (err & log & Hlast & _ & Hlen & Hreq).
  - vm_compute. discriminate.
  - vm_compute in Hlast. injection Hlast as <-.
    eexists _, log. split; [exact Hreq|]. split; [exact Hlen|].
    split; reflexivity.
Defined.

Lemma RequestDeploymentConfig_without_mutations_witness :
  RequestDeploymentConfig (fake.request "" []) fake.emptyWorld =
  ((Some (newDeploymentConfig "" "argocd" "argocd-ns" "server"
            {[ "tier" := "x" ]} ∅), None),
   fake.emptyWorld).
Proof.
  apply (RequestDeploymentConfig_without_mutations (fake.request "" [])).
  reflexivity.
Defined.

Lemma explicit_name_is_kept_witness :
  metav1.Name (ObjectMeta fake.web) = "web"
  ∧ ∃ obj,
      (RequestDeploymentConfig (fake.request "web" [fake.setReplicas 3])
         fake.emptyWorld).1.1 = Some obj
      ∧ metav1.Name (ObjectMeta obj) = "web".
Proof.
  destruct (explicit_name_is_kept (fake.request "web" [fake.setReplicas 3]))
    as [Hbuilt Hreturned]; [discriminate|].
  split; [exact Hbuilt|].
  apply Hreturned. constructor; [|constructor].
  intros prev target rest c. reflexivity.
Defined.

Lemma default_name_is_generated_witness :
  metav1.Name
    (ObjectMeta (newDeploymentConfig "" "argocd" "argocd-ns" "server"
                   {[ "tier" := "x" ]} ∅))
  = "argocd-server".
Proof.
  destruct (default_name_is_generated (Cluster := fake.Store))
    as (_ & _ & Hscenario).
  apply (Hscenario (fake.request "" [])); reflexivity.
Defined.

Lemma labels_and_annotations_are_merged_witness :
  metav1.Labels (ObjectMeta fake.web) !! "tier" = Some "x"
  ∧ metav1.Labels (ObjectMeta fake.web) !! "app" = Some "argocd".
Proof.
  destruct (labels_and_annotations_are_merged (fake.request "web" []))
    as (_ & _ & _ & _ & Hscenario).
  apply Hscenario; reflexivity.
Defined.

(** Nothing is stored: NotFound. The object is stored: it is returned. *)
Lemma GetDeploymentConfig_returns_the_answer_witness :
  (GetDeploymentConfig "web" "argocd-ns" fake.client fake.emptyWorld).1 =
    (None, Some (errors.NewNotFound "web"))
  ∧ (GetDeploymentConfig "web" "argocd-ns" fake.client
       (fake.worldWith fake.web)).1 = (Some fake.web, None).
Proof.
  split.
  - destruct (GetDeploymentConfig_returns_the_answer "web" "argocd-ns"
                fake.client fake.emptyWorld _ _ _ eq_refl) as (Herr & _).
    apply Herr. reflexivity.
  - destruct (GetDeploymentConfig_returns_the_answer "web" "argocd-ns"
                fake.client (fake.worldWith fake.web) _ _ _ eq_refl)
      as (_ & Hfound & _).
    apply Hfound. reflexivity.
Defined.

Lemma UpdateDeploymentConfig_absent_returns_NotFound_witness :
  ∃ log,
    UpdateDeploymentConfig fake.web fake.client fake.emptyWorld =
      ((fake.web, Some (errors.NewNotFound "web")),
       after fake.emptyWorld ∅ log)
    ∧ log = [CallGet (keyOf "web" "argocd-ns") zeroDeploymentConfig]
    ∧ ¬ callsUpdate log.
Proof.
  apply (UpdateDeploymentConfig_absent_returns_NotFound fake.web fake.client
           fake.emptyWorld zeroDeploymentConfig (errors.NewNotFound "web") ∅);
    reflexivity.
Defined.

(** Nothing is stored: success without a [Delete]. The server cannot be
    reached: its error. The object is stored and its deletion refused: the
    refusal. The get fails with a status of no known reason and code 404, or
    with an error that wraps a NotFound: success again, as for a NotFound. *)
Lemma DeleteDeploymentConfig_tolerates_NotFound_witness :
  (∃ log,
     DeleteDeploymentConfig "web" "argocd-ns" fake.client fake.emptyWorld =
       (None, after fake.emptyWorld ∅ log)
     ∧ log = [CallGet (keyOf "web" "argocd-ns") zeroDeploymentConfig]
     ∧ ¬ callsDelete log)
  ∧ DeleteDeploymentConfig "web" "argocd-ns"
      (fake.unreachable (errors.StatusError errors.StatusReasonTimeout 504 "timeout"))
      fake.emptyWorld =
    (Some (errors.StatusError errors.StatusReasonTimeout 504 "timeout"),
     after fake.emptyWorld ∅
       [CallGet (keyOf "web" "argocd-ns") zeroDeploymentConfig])
  ∧ DeleteDeploymentConfig "web" "argocd-ns"
      (fake.undeletable (errors.errorString "refused"))
      (fake.worldWith fake.web) =
    (Some (errors.errorString "refused"),
     after (fake.worldWith fake.web) (cluster (fake.worldWith fake.web))
       [CallGet (keyOf "web" "argocd-ns") zeroDeploymentConfig;
        CallDelete (Some fake.web)])
  ∧ (DeleteDeploymentConfig "web" "argocd-ns"
       (fake.unreachable
          (errors.StatusError errors.StatusReasonUnknown 404 "gone"))
       (fake.worldWith fake.web)).1 = None
  ∧ (DeleteDeploymentConfig "web" "argocd-ns"
       (fake.unreachable
          (errors.wrapError "get web: not found" [errors.NewNotFound "web"]))
       (fake.worldWith fake.web)).1 = None.
Proof.
  split; [|split; [|split; [|split]]].
  - destruct (DeleteDeploymentConfig_tolerates_NotFound "web" "argocd-ns"
                fake.client fake.emptyWorld _ _ _ eq_refl) as (Habsent & _).
    apply (Habsent (errors.NewNotFound "web")); reflexivity.
  - destruct (DeleteDeploymentConfig_tolerates_NotFound "web" "argocd-ns"
                (fake.unreachable
                   (errors.StatusError errors.StatusReasonTimeout 504 "timeout"))
                fake.emptyWorld _ _ _ eq_refl) as (_ & Hother & _).
    apply Hother; reflexivity.
  - destruct (DeleteDeploymentConfig_tolerates_NotFound "web" "argocd-ns"
                (fake.undeletable (errors.errorString "refused"))
                (fake.worldWith fake.web) _ _ _ eq_refl) as (_ & _ & Hfound).
    apply Hfound; reflexivity.
  - destruct (DeleteDeploymentConfig_tolerates_NotFound "web" "argocd-ns"
                (fake.unreachable
                   (errors.StatusError errors.StatusReasonUnknown 404 "gone"))
                (fake.worldWith fake.web) _ _ _ eq_refl) as (Habsent & _).
    destruct (Habsent _ eq_refl eq_refl) as (log & -> & _). reflexivity.
  - destruct (DeleteDeploymentConfig_tolerates_NotFound "web" "argocd-ns"
                (fake.unreachable
                   (errors.wrapError "get web: not found"
                      [errors.NewNotFound "web"]))
                (fake.worldWith fake.web) _ _ _ eq_refl) as (Habsent & _).
    destruct (Habsent _ eq_refl eq_refl) as (log & -> & _). reflexivity.
Defined.

(** One object is stored in the namespace asked for: the list holds it. The
    server cannot be reached: a nil list and its error. *)
Lemma ListDeploymentConfigs_forwards_witness :
  ListDeploymentConfigs "ignored" fake.client [fake.InNamespace "argocd-ns"]
    (fake.worldWith fake.web) =
    ((Some {| ListMeta := metav1.zeroList; Items := [fake.web] |}, None),
     after (fake.worldWith fake.web) (cluster (fake.worldWith fake.web))
       [CallList zeroDeploymentConfigList [fake.InNamespace "argocd-ns"]])
  ∧ (ListDeploymentConfigs "ignored"
       (fake.unreachable (errors.errorString "no route"))
       [fake.InNamespace "argocd-ns"] fake.emptyWorld).1 =
    (None, Some (errors.errorString "no route")).
Proof.
  split.
  - destruct (ListDeploymentConfigs_forwards "ignored" fake.client
                [fake.InNamespace "argocd-ns"] (fake.worldWith fake.web)
                _ _ _ eq_refl) as (Hworld & Hok & _).
    apply injective_projections; [by apply Hok|exact Hworld].
  - destruct (ListDeploymentConfigs_forwards "ignored"
                (fake.unreachable (errors.errorString "no route"))
                [fake.InNamespace "argocd-ns"] fake.emptyWorld
                _ _ _ eq_refl) as (_ & _ & Hfailed & _).
    by apply Hfailed.
Defined.

(** Every callback of the list is logged with a nil previous object and the
    request's client as its only variadic argument. *)
Example RequestDeploymentConfig_log_of_two_callbacks :
  ∃ target,
    calls (RequestDeploymentConfig
             (fake.request "web" [fake.failWith "first"; fake.setReplicas 3])
             fake.emptyWorld).2
    = [CallMutate (fake.failWith "first") None fake.web [Some "client"];
       CallMutate (fake.setReplicas 3) None target [Some "client"]].
Proof. eexists. reflexivity. Qed.

(** The name [newDeploymentConfig] gave is the name of the returned object
    only as long as no callback changes it: a callback is free to. *)
Example RequestDeploymentConfig_callback_may_rename :
  ∃ obj,
    (RequestDeploymentConfig (fake.request "web" [fake.rename "other"])
       fake.emptyWorld).1 = (Some obj, None)
    ∧ metav1.Name (ObjectMeta obj) = "other".
Proof. eexists. split; reflexivity. Qed.

(** What [errors.IsNotFound] takes for a NotFound: the reason NotFound, a
    reason the library does not know with the code 404, and an error that
    wraps one of these; not a known reason with the code 404, nor a plain
    message. *)
Example IsNotFound_cases :
  errors.IsNotFound (errors.NewNotFound "web") = true
  ∧ errors.IsNotFound (errors.StatusError errors.StatusReasonUnknown 404 "gone")
    = true
  ∧ errors.IsNotFound (errors.StatusError "Vanished" 404 "gone") = true
  ∧ errors.IsNotFound
      (errors.wrapError "outer"
         [errors.errorString "plain";
          errors.wrapError "inner" [errors.NewNotFound "web"]]) = true
  ∧ errors.IsNotFound (errors.StatusError errors.StatusReasonGone 404 "gone")
    = false
  ∧ errors.IsNotFound (errors.StatusError errors.StatusReasonUnknown 500 "oops")
    = false
  ∧ errors.IsNotFound (errors.errorString "not found") = false.
Proof. repeat split; reflexivity. Qed.

(** Creating twice under one name: the second call is refused with
    AlreadyExists. *)
Example CreateDeploymentConfig_twice :
  ∃ w,
    CreateDeploymentConfig fake.web fake.client fake.emptyWorld =
      ((fake.web, None), w)
    ∧ (CreateDeploymentConfig fake.web fake.client w).1 =
      (fake.web, Some (errors.NewAlreadyExists "web")).
Proof. eexists. split; reflexivity. Qed.

(** Creating what is stored already: the client's AlreadyExists comes back,
    after the one call. *)
Lemma CreateDeploymentConfig_is_one_call_witness :
  CreateDeploymentConfig fake.web fake.client (fake.worldWith fake.web) =
  ((fake.web, Some (errors.NewAlreadyExists "web")),
   after (fake.worldWith fake.web) (cluster (fake.worldWith fake.web))
     [CallCreate fake.web]).
Proof.
  apply (CreateDeploymentConfig_is_one_call fake.web fake.client
           (fake.worldWith fake.web)).
  reflexivity.
Defined.

(** The object is stored, but the server cannot be reached: the timeout is
    returned and nothing is updated. *)
Lemma UpdateDeploymentConfig_stops_at_get_error_witness :
  ∃ log,
    UpdateDeploymentConfig fake.web
      (fake.unreachable (errors.StatusError errors.StatusReasonTimeout 504 "timeout"))
      (fake.worldWith fake.web) =
      ((fake.web, Some (errors.StatusError errors.StatusReasonTimeout 504 "timeout")),
       after (fake.worldWith fake.web) (cluster (fake.worldWith fake.web)) log)
    ∧ length log = 1
    ∧ ¬ callsUpdate log.
Proof.
  apply (UpdateDeploymentConfig_stops_at_get_error fake.web
           (fake.unreachable
              (errors.StatusError errors.StatusReasonTimeout 504 "timeout"))
           (fake.worldWith fake.web) zeroDeploymentConfig).
  reflexivity.
Defined.

(** The object is stored with no replica: updating it to five stores the
    caller's object. *)
Lemma UpdateDeploymentConfig_forwards_the_object_witness :
  UpdateDeploymentConfig (fake.scaled fake.web 5) fake.client
    (fake.worldWith fake.web) =
  ((fake.scaled fake.web 5, None),
   after (fake.worldWith fake.web)
     (<[fake.keyOfObject fake.web := fake.scaled fake.web 5]>
        (cluster (fake.worldWith fake.web)))
     [CallGet (keyOf "web" "argocd-ns") zeroDeploymentConfig;
      CallUpdate (fake.scaled fake.web 5)]).
Proof.
  apply (UpdateDeploymentConfig_forwards_the_object (fake.scaled fake.web 5)
           fake.client (fake.worldWith fake.web) fake.web
           (cluster (fake.worldWith fake.web)));
    reflexivity.
Defined.

(** Two callbacks that succeed, the second storing the object: no error, and
    the cluster holds the object with the replicas the first one set. *)
Lemma RequestDeploymentConfig_fails_iff_a_callback_fails_witness :
  (RequestDeploymentConfig
     (fake.request "web" [fake.setReplicas 3; fake.store])
     fake.emptyWorld).1 = (Some (fake.scaled fake.web 3), None)
  ∧ cluster
      (RequestDeploymentConfig
         (fake.request "web" [fake.setReplicas 3; fake.store])
         fake.emptyWorld).2 !! ("argocd-ns", "web")
    = Some (fake.scaled fake.web 3).
Proof.
  destruct (RequestDeploymentConfig_fails_iff_a_callback_fails
              (fake.request "web" [fake.setReplicas 3; fake.store])
              fake.emptyWorld _ _ _ eq_refl) as (Hobject & Hcluster & Herror).
  split.
  - apply injective_projections; [exact Hobject|].
    apply Herror. reflexivity.
  - rewrite Hcluster. reflexivity.
Defined.

(** Two callbacks fail, the second with a NotFound: the error that comes
    back is not a NotFound, and its message is the prefix and the message of
    the second. *)
Lemma RequestDeploymentConfig_error_is_a_message_witness :
  errors.IsNotFound (errors.NewNotFound "secret") = true
  ∧ ∃ err,
      (RequestDeploymentConfig
         (fake.request "web"
            [fake.failWith "first"; fake.failAs (errors.NewNotFound "secret")])
         fake.emptyWorld).1.2 = Some err
      ∧ errors.IsNotFound err = false
      ∧ err = errors.errorString
                (RequestDeploymentConfig_prefix
                 +:+ errors.Error (errors.NewNotFound "secret")).
Proof.
  split; [reflexivity|]. eexists. split; [reflexivity|].
  destruct (RequestDeploymentConfig_error_is_a_message
              (fake.request "web"
                 [fake.failWith "first";
                  fake.failAs (errors.NewNotFound "secret")])
              fake.emptyWorld _ eq_refl)
    as (Hkind & _ & cause & _ & Hlast & Herr).
  split; [exact Hkind|].
  vm_compute in Hlast. injection Hlast as <-. reflexivity.
Defined.

(** A request whose one callback fails, with a succeeding callback added: the
    added one has run, and the error is still the first one's. *)
Lemma RequestDeploymentConfig_with_more_mutations_witness :
  (RequestDeploymentConfig
     (withMutations (fake.request "web" [fake.failWith "first"])
        ([fake.failWith "first"] ++ [fake.setReplicas 3]))
     fake.emptyWorld).1
  = (Some (fake.scaled fake.web 3),
     Some (errors.errorString
             "RequestDeploymentConfig: one or more mutation functions could not be applied: first")).
Proof.
  destruct (RequestDeploymentConfig_with_more_mutations
              (fake.request "web" [fake.failWith "first"])
              [fake.setReplicas 3] fake.emptyWorld _ _ _ _ _ _
              eq_refl eq_refl) as [Hresult _].
  exact Hresult.
Defined.

(** A callback that refuses a previous object does as one that ignores it. *)
Lemma RequestDeploymentConfig_only_uses_nil_previous_witness :
  (RequestDeploymentConfig
     (withMutations (fake.request "web" []) [fake.setReplicas 3])
     fake.emptyWorld).1 =
  (RequestDeploymentConfig
     (withMutations (fake.request "web" []) [fake.setReplicasOnCreate 3])
     fake.emptyWorld).1.
Proof.
  destruct (RequestDeploymentConfig_only_uses_nil_previous
              (fake.request "web" []) [fake.setReplicas 3]
              [fake.setReplicasOnCreate 3] fake.emptyWorld) as [Hresult _].
  - constructor; [|constructor]. intros target rest c. reflexivity.
  - exact Hresult.
Defined.

End witnesses.
